(** * OMEN Battery: the telemetry-to-decision pipeline of [omen_battery/main.py]

    A shallow embedding of the sensor reads ([sysread], [sysint], [BattData]),
    the persisted-state store ([load_state], [save_state]) and the
    charge-limit logic of [BatteryPanel] ([_toggle_topup], [_refresh]),
    followed by the properties of the specification that concern them.

    Conventions of the embedding.
    - Text is a [string] whose characters are the code points U+0000..U+00FF.
    - Python values that come out of [json.loads] are [pyval]s; a [dict] with
      string keys is a [gmap string pyval].
    - A Python [float] is represented by the exact rational of which it is
      the nearest binary64 number.  Signs, comparisons with [0] and with
      [0.1], and the choice of every branch of [BattData] coincide with the
      binary64 computation for readings below 10^15; the rendering of a
      float as text is not part of the model.  The span of the tray icon,
      where a truncation makes the rounding visible, is computed in binary64
      itself.
    - An exception is a value of [exn]; code that mutates [self._state]
      before raising leaves the mutation in place, as in Python. *)

From Stdlib Require Import ZArith QArith Qabs Qround Lqa String Ascii List Lia.
From Stdlib Require Import DecimalString DecimalZ DecimalPos Floats.
From stdpp Require Import gmap strings.

Local Open Scope string_scope.

(** ** Exceptions and results *)

Inductive exn : Set :=
| ValueError
| OverflowError
| TypeError
| AttributeError
| OSError.

Inductive result (A : Type) : Type :=
| Ok (a : A)
| Raise (e : exn).

Arguments Ok {A} a.
Arguments Raise {A} e.

Definition rbind {A B} (r : result A) (k : A -> result B) : result B :=
  match r with
  | Ok a => k a
  | Raise e => Raise e
  end.

Notation "'try!' x <- r ; k" := (rbind r (fun x => k))
  (at level 10, x name, r at level 100, k at level 200).

(** ** Text primitives of the Python runtime *)

Module Text.

Definition code (c : ascii) : N := N_of_ascii c.

(** [str.isspace] on one character: the white space that [str.strip] and
    [int] remove. *)
Definition is_space (c : ascii) : bool :=
  let n := code c in
  ((9 <=? n) && (n <=? 13) || (28 <=? n) && (n <=? 32)
   || (n =? 133) || (n =? 160))%N.

(** The decimal digits [0]..[9], the only digits [int] accepts here. *)
Definition is_decimal (c : ascii) : bool :=
  let n := code c in ((48 <=? n) && (n <=? 57))%N.

(** Superscript one, two and three: digits for [str.isdigit], not for [int]. *)
Definition is_superscript (c : ascii) : bool :=
  let n := code c in ((n =? 178) || (n =? 179) || (n =? 185))%N.

Definition is_digit_char (c : ascii) : bool := is_decimal c || is_superscript c.

Definition is_dash (c : ascii) : bool := (code c =? 45)%N.

Definition nonempty (s : string) : bool :=
  match s with EmptyString => false | String _ _ => true end.

Fixpoint all_chars (p : ascii -> bool) (s : string) : bool :=
  match s with
  | EmptyString => true
  | String c r => p c && all_chars p r
  end.

Fixpoint any_char (p : ascii -> bool) (s : string) : bool :=
  match s with
  | EmptyString => false
  | String c r => p c || any_char p r
  end.

Fixpoint lstrip_by (p : ascii -> bool) (s : string) : string :=
  match s with
  | EmptyString => EmptyString
  | String c r => if p c then lstrip_by p r else s
  end.

Fixpoint rstrip_by (p : ascii -> bool) (s : string) : string :=
  match s with
  | EmptyString => EmptyString
  | String c r =>
      let r' := rstrip_by p r in
      if p c && negb (nonempty r') then EmptyString else String c r'
  end.

(** [s.strip()] *)
Definition strip (s : string) : string := lstrip_by is_space (rstrip_by is_space s).

(** [s.lstrip('-')] *)
Definition lstrip_dash (s : string) : string := lstrip_by is_dash s.

(** [s.isdigit()] *)
Definition isdigit (s : string) : bool := nonempty s && all_chars is_digit_char s.

Definition digit_val (c : ascii) : Z := (Z.of_N (code c) - 48)%Z.

(** The digit part of an [int] literal: decimal digits, with single
    underscores allowed between two digits. *)
Fixpoint int_digits (acc : Z) (after_digit : bool) (s : string) : option Z :=
  match s with
  | EmptyString => if after_digit then Some acc else None
  | String c r =>
      if is_decimal c then int_digits (10 * acc + digit_val c)%Z true r
      else if (code c =? 95)%N && after_digit then int_digits acc false r
      else None
  end.

(** [int(s)] for a [str] argument in base ten: surrounding white space,
    one optional sign, then the digits.  Anything else is a [ValueError].
    (The interpreter's cap on the length of a literal, 4300 digits unless
    configured otherwise, is left out.) *)
Definition py_int (s : string) : result Z :=
  let t := strip s in
  let '(neg, body) :=
    match t with
    | String c r =>
        if is_dash c then (true, r)
        else if (code c =? 43)%N then (false, r)
        else (false, t)
    | EmptyString => (false, t)
    end in
  match int_digits 0 false body with
  | Some n => Ok (if neg then (- n)%Z else n)
  | None => Raise ValueError
  end.

(** [s.startswith('-')] and [s.startswith('--')] *)
Definition starts_dash (s : string) : bool :=
  match s with String c _ => is_dash c | EmptyString => false end.


End Text.

(** ** The sysfs attribute files *)

(** The files under [/sys/class/power_supply]: a path is bound to its content
    exactly when [Path(p).read_text()] succeeds on it. *)
Abbreviation sysfs := (gmap string string).

Definition BAT : string := "/sys/class/power_supply/BAT1".
Definition AC : string := "/sys/class/power_supply/ACAD".

(** [Path / name] *)
Definition path_join (dir name : string) : string := dir ++ "/" ++ name.

Section Sensors.

Variable fs : sysfs.

(** [sysread]: the stripped content, [None] when the read raises. *)
Definition sysread (p : string) : option string :=
  match fs !! p with
  | Some txt => Some (Text.strip txt)
  | None => None
  end.

(** The guard of [sysint]: [v and v.lstrip('-').isdigit()]. *)
Definition sysint_guard (v : string) : bool :=
  Text.nonempty v && Text.isdigit (Text.lstrip_dash v).

(** [sysint]: [int(v)] under the guard, [0] otherwise. *)
Definition sysint (p : string) : result Z :=
  match sysread p with
  | Some v => if sysint_guard v then Text.py_int v else Ok 0%Z
  | None => Ok 0%Z
  end.

End Sensors.

(** ** Battery data snapshot *)

(** The least magnitude that does not round to a finite binary64 number. *)
Definition float_limit : Q := inject_Z (2 ^ 1024 - 2 ^ 970).

Definition overflows (q : Q) : bool := Qle_bool float_limit (Qabs q).

(** [a / b] on two Python [int]s ([b] is never zero here): the quotient, or
    [OverflowError] when it is too large for a float. *)
Definition truediv (a b : Z) : result Q :=
  let q := (inject_Z a / inject_Z b)%Q in
  if overflows q then Raise OverflowError else Ok q.

Definition Qgt_bool (a b : Q) : bool := negb (Qle_bool a b).

(** Truth value of a float: [x] is true when it is not zero. *)
Definition Qtruthy (q : Q) : bool := negb (Qeq_bool q 0).

Definition round_half_even (q : Q) : Z :=
  let f := Qfloor q in
  match (q - inject_Z f ?= 1 # 2)%Q with
  | Lt => f
  | Gt => (f + 1)%Z
  | Eq => if Z.even f then f else (f + 1)%Z
  end.

(** [round(x, 1)] *)
Definition py_round1 (q : Q) : Q := (inject_Z (round_half_even (q * 10)) / 10)%Q.

(** [max(0, x)] *)
Definition py_max0 (q : Q) : Q := if Qgt_bool q 0 then q else 0%Q.

Record BattData : Type := mkBattData {
  capacity : Z;
  status : string;
  energy_now : Q;
  energy_full : Q;
  energy_design : Q;
  power_w : Q;
  voltage_v : Q;
  cycle_count : Z;
  ac_online : Z;
  bios_cap_pct : Q;
  (** [time_str]: [None] is the placeholder dash, [Some h] the text made of
      the hours [h]. *)
  time_str : option Q
}.

(** [self.bios_cap_pct] *)
Definition bios_cap (full design : Q) : Q :=
  if Qtruthy design then py_round1 (full / design * 100) else 0%Q.

(** The hours [h] of the time estimate, before the test [h > 0]. *)
Definition hours (st : string) (now full power : Q) : Q :=
  if String.eqb st "Discharging" then (now / power)%Q
  else if String.eqb st "Charging" || String.eqb st "Not charging"
       then py_max0 ((full - now) / power)
       else 0%Q.

(** The time estimate at the end of [BattData.__init__].  [int(h)] raises
    [OverflowError] on an infinite [h]. *)
Definition time_estimate (st : string) (now full power : Q) : result (option Q) :=
  if Qgt_bool power (1 # 10) then
    let h := hours st now full power in
    if Qgt_bool h 0 then
      if overflows h then Raise OverflowError else Ok (Some h)
    else Ok None
  else Ok None.

(** [BattData.__init__] *)
Definition BattData_init (fs : sysfs) : result BattData :=
  try! cap <- sysint fs (path_join BAT "capacity");
  let st := match sysread fs (path_join BAT "status") with
            | Some v => if Text.nonempty v then v else "Unknown"
            | None => "Unknown"
            end in
  try! e_now <- sysint fs (path_join BAT "energy_now");
  try! now <- truediv e_now 1000000;
  try! e_full <- sysint fs (path_join BAT "energy_full");
  try! full <- truediv e_full 1000000;
  try! e_design <- sysint fs (path_join BAT "energy_full_design");
  try! design <- truediv e_design 1000000;
  try! p_now <- sysint fs (path_join BAT "power_now");
  try! power <- truediv p_now 1000000;
  try! v_now <- sysint fs (path_join BAT "voltage_now");
  try! volt <- truediv v_now 1000000;
  try! cycles <- sysint fs (path_join BAT "cycle_count");
  try! online <- sysint fs (path_join AC "online");
  try! t <- time_estimate st now full power;
  Ok {| capacity := cap; status := st;
        energy_now := now; energy_full := full; energy_design := design;
        power_w := power; voltage_v := volt;
        cycle_count := cycles; ac_online := online;
        bios_cap_pct := bios_cap full design;
        time_str := t |}.

Definition demo_fs : sysfs :=
  {[ path_join BAT "capacity" := "80";
     path_join BAT "status" := "Charging";
     path_join BAT "energy_now" := "56000000";
     path_join BAT "energy_full" := "70000000";
     path_join BAT "energy_full_design" := "83000000";
     path_join BAT "power_now" := "28000000";
     path_join BAT "voltage_now" := "16500000";
     path_join BAT "cycle_count" := "112";
     path_join AC "online" := "1" ]}.

(** ** Python values of the state document *)

Inductive pyfloat : Type :=
| Fin (q : Q)
| PosInf
| NegInf
| NaN.

#[warnings="-register-all"]
Inductive pyval : Type :=
| VNone
| VBool (b : bool)
| VInt (z : Z)
| VFloat (f : pyfloat)
| VStr (s : string)
| VList (l : list pyval)
| VDict (d : gmap string pyval).

Abbreviation dict := (gmap string pyval).

(** Truth value of an object, as [if v] and [v and ...] test it. *)
Definition truthy (v : pyval) : bool :=
  match v with
  | VNone => false
  | VBool b => b
  | VInt z => negb (z =? 0)%Z
  | VFloat (Fin q) => Qtruthy q
  | VFloat _ => true
  | VStr s => Text.nonempty s
  | VList l => match l with nil => false | _ => true end
  | VDict d => negb (bool_decide (d = ∅))
  end.

(** [c >= v] for an [int] [c]: numbers compare by value, anything else is a
    [TypeError]. *)
Definition py_ge_int (c : Z) (v : pyval) : result bool :=
  match v with
  | VInt z => Ok (z <=? c)%Z
  | VBool b => Ok (Z.b2z b <=? c)%Z
  | VFloat (Fin q) => Ok (Qle_bool q (inject_Z c))
  | VFloat NegInf => Ok true
  | VFloat _ => Ok false
  | _ => Raise TypeError
  end.

(** [v != c] for an [int] [c]: never raises. *)
Definition py_ne_int (v : pyval) (c : Z) : bool :=
  match v with
  | VInt z => negb (z =? c)%Z
  | VBool b => negb (Z.b2z b =? c)%Z
  | VFloat (Fin q) => negb (Qeq_bool q (inject_Z c))
  | _ => true
  end.

(** [s.get(k, default)] *)
Definition dict_get (s : dict) (k : string) (default : pyval) : pyval :=
  match s !! k with
  | Some v => v
  | None => default
  end.

(** ** State persistence *)

(** What [STATE_FILE] holds, as [read_text] and [json.loads] see it. *)
Inductive state_file : Type :=
| Missing                 (* no such file *)
| Unreadable              (* the read or the decoding fails *)
| Malformed               (* text that is not a JSON document *)
| Document (v : pyval).   (* a JSON document, and the value it denotes *)

Record store : Type := mkStore {
  file : state_file;
  mkdir_ok : bool;   (* [STATE_FILE.parent.mkdir(...)] succeeds *)
  write_ok : bool    (* [STATE_FILE.write_text(...)] succeeds *)
}.

Definition default_state : dict :=
  {[ "limit" := VInt 80; "top_up_active" := VBool false; "notified_at" := VInt (-1) ]}.

(** [json.loads(STATE_FILE.read_text())] *)
Definition read_state_file (st : store) : result pyval :=
  match file st with
  | Missing => Raise OSError
  | Unreadable => Raise OSError
  | Malformed => Raise ValueError
  | Document v => Ok v
  end.

(** [load_state]: the bare [except] turns every exception into the defaults. *)
Definition load_state (st : store) : pyval :=
  match read_state_file st with
  | Ok v => v
  | Raise _ => VDict default_state
  end.

(** [save_state]: no handler, so a failing [mkdir] or [write_text] reaches
    the caller. *)
Definition save_state (s : dict) (st : store) : result store :=
  if mkdir_ok st then
    if write_ok st then Ok (mkStore (Document (VDict s)) (mkdir_ok st) (write_ok st))
    else Raise OSError
  else Raise OSError.

(** ** KDE notification *)

Inductive urgency : Set := normal | critical.

(** The three texts the program sends; [UnplugNow] carries the two values its
    title and body are formatted with. *)
Inductive message : Type :=
| TopUpActivated
| BatteryFull
| UnplugNow (cap : Z) (limit : pyval).

Record notification : Type := mkNote {
  msg : message;
  urg : urgency;
  icon : string
}.

(** ** The panel: [self._state], the state file and the notifications sent *)

Record panel : Type := mkPanel {
  _state : dict;
  disk : store;
  sent : list notification
}.

(** Computations of the panel: the panel is threaded through, and an
    exception keeps the panel as it was when it was raised. *)
Definition M (A : Type) : Type := panel -> result A * panel.

Definition ret {A} (a : A) : M A := fun p => (Ok a, p).

Definition bind {A B} (m : M A) (k : A -> M B) : M B :=
  fun p => match m p with
           | (Ok a, p') => k a p'
           | (Raise e, p') => (Raise e, p')
           end.

Definition lift {A} (r : result A) : M A := fun p => (r, p).

Notation "'do' x <- m ; k" := (bind m (fun x => k))
  (at level 10, x name, m at level 100, k at level 200).
Notation "m ;; k" := (bind m (fun _ => k))
  (at level 100, k at level 200, right associativity).

Definition get_state : M dict := fun p => (Ok (_state p), p).

(** [self._state[k] = v] *)
Definition set_item (k : string) (v : pyval) : M unit :=
  fun p => (Ok tt, mkPanel (<[k := v]> (_state p)) (disk p) (sent p)).

(** [notify(...)]: the request handed to [notify-send]. *)
Definition notify (m : message) (u : urgency) (i : string) : M unit :=
  fun p => (Ok tt, mkPanel (_state p) (disk p) (sent p ++ [mkNote m u i])).

(** [save_state(self._state)] *)
Definition save : M unit :=
  fun p => match save_state (_state p) (disk p) with
           | Ok st => (Ok tt, mkPanel (_state p) st (sent p))
           | Raise e => (Raise e, p)
           end.

Definition limit_of (s : dict) : pyval := dict_get s "limit" (VInt 80).
Definition topup_of (s : dict) : pyval := dict_get s "top_up_active" (VBool false).
Definition notified_of (s : dict) : pyval := dict_get s "notified_at" (VInt (-1)).

(** [effective_limit = 100 if topup else limit] *)
Definition effective_limit (s : dict) : pyval :=
  if truthy (topup_of s) then VInt 100 else limit_of s.

(** The condition of the first [if] of the charge limit logic:
    [d.ac_online and d.capacity >= effective_limit and notified_at != d.capacity],
    evaluated from left to right. *)
Definition fire_condition (d : BattData) (s : dict) : result bool :=
  if negb (ac_online d =? 0)%Z
  then try! ge <- py_ge_int (capacity d) (effective_limit s);
       Ok (ge && py_ne_int (notified_of s) (capacity d))
  else Ok false.

(** The charge limit logic of [_refresh], on the snapshot [d] it has read.
    (The widget updates that precede it are presentation.) *)
Definition charge_limit_logic (d : BattData) : M unit :=
  do s <- get_state;
  let limit := limit_of s in
  let topup := topup_of s in
  let notified_at := notified_of s in
  do fire <- lift (fire_condition d s);
  (if fire then
     (if truthy topup then
        notify BatteryFull normal "battery-full" ;;
        set_item "top_up_active" (VBool false)
      else
        notify (UnplugNow (capacity d) limit) critical "battery-caution") ;;
     set_item "notified_at" (VInt (capacity d)) ;;
     save
   else ret tt) ;;
  (if (ac_online d =? 0)%Z && py_ne_int notified_at (-1)
   then set_item "notified_at" (VInt (-1)) ;; save
   else ret tt).

(** [BatteryPanel._refresh] *)
Definition _refresh (fs : sysfs) : M unit :=
  do d <- lift (BattData_init fs);
  charge_limit_logic d.

(** The statements of [_toggle_topup] before its closing [self._refresh()];
    [checked] is [self._btn_topup.isChecked()]. *)
Definition toggle_own (checked : bool) : M unit :=
  set_item "top_up_active" (VBool checked) ;;
  set_item "notified_at" (VInt (-1)) ;;
  save ;;
  (if checked then notify TopUpActivated normal "battery-full" else ret tt).

(** [BatteryPanel._toggle_topup] *)
Definition _toggle_topup (checked : bool) (fs : sysfs) : M unit :=
  toggle_own checked ;; _refresh fs.

(** [BatteryPanel.__init__], for the part that touches the state:
    [load_state()], a first [BattData()], then [_refresh()], whose first
    [s.get] needs a [dict].  An exception leaves no panel. *)
Definition panel_init (st : store) (fs : sysfs) : result panel :=
  let s := load_state st in
  try! d <- BattData_init fs;
  match s with
  | VDict s =>
      match _refresh fs (mkPanel s st []) with
      | (Ok _, p) => Ok p
      | (Raise e, _) => Raise e
      end
  | _ => Raise AttributeError
  end.

(** ** The state as the specification reads it *)

Record PersistedState : Type := mkState {
  limit : Z;
  topUpActive : bool;
  notifiedAt : Z
}.

Definition effectiveLimit (st : PersistedState) : Z :=
  if topUpActive st then 100%Z else limit st.

(** [s] reads as [st]: the three lookups of [_refresh], defaults included,
    give an [int], a [bool] and an [int]. *)
Definition reads_as (s : dict) (st : PersistedState) : Prop :=
  limit_of s = VInt (limit st)
  /\ topup_of s = VBool (topUpActive st)
  /\ notified_of s = VInt (notifiedAt st).

(** The notification of the charge limit logic when it fires. *)
Definition policy_note (d : BattData) (s : dict) : notification :=
  if truthy (topup_of s)
  then mkNote BatteryFull normal "battery-full"
  else mkNote (UnplugNow (capacity d) (limit_of s)) critical "battery-caution".

(** The panel after one evaluation of the charge limit logic. *)
Definition after_tick (d : BattData) (p : panel) : panel := snd (charge_limit_logic d p).

(** [self._state] after the first [if] has fired. *)
Definition fired_state (d : BattData) (s : dict) : dict :=
  <["notified_at" := VInt (capacity d)]>
    (if truthy (topup_of s) then <["top_up_active" := VBool false]> s else s).

(** ** Readings of the sensor files *)





(** The reading of [p] starts with a minus sign. *)
Definition negative_reading (fs : sysfs) (p : string) : bool :=
  match sysread fs p with Some v => Text.starts_dash v | None => false end.

(** What every constructed snapshot holds for an unreadable attribute, and
    its derived [bios_cap_pct]. *)
Definition snapshot_defaults (fs : sysfs) (d : BattData) : Prop :=
  (fs !! path_join BAT "status" = None -> status d = "Unknown")
  /\ (fs !! path_join BAT "capacity" = None -> capacity d = 0%Z)
  /\ (fs !! path_join BAT "energy_now" = None -> (energy_now d == 0)%Q)
  /\ (fs !! path_join BAT "energy_full" = None -> (energy_full d == 0)%Q)
  /\ (fs !! path_join BAT "energy_full_design" = None -> (energy_design d == 0)%Q)
  /\ (fs !! path_join BAT "power_now" = None -> (power_w d == 0)%Q)
  /\ (fs !! path_join BAT "voltage_now" = None -> (voltage_v d == 0)%Q)
  /\ (fs !! path_join BAT "cycle_count" = None -> cycle_count d = 0%Z)
  /\ (fs !! path_join AC "online" = None -> ac_online d = 0%Z)
  /\ ((energy_design d == 0)%Q -> bios_cap_pct d = 0%Q)
  /\ (~ (energy_design d == 0)%Q ->
      bios_cap_pct d = py_round1 (energy_full d / energy_design d * 100)).


(** ** The panel between the steps of a handler *)

(** The panel after the own statements of [_toggle_topup], when the save
    succeeds. *)
Definition toggled (checked : bool) (p : panel) : panel :=
  mkPanel (<["notified_at" := VInt (-1)]> (<["top_up_active" := VBool checked]> (_state p)))
          (mkStore (Document (VDict (<["notified_at" := VInt (-1)]>
                                       (<["top_up_active" := VBool checked]> (_state p)))))
                   true true)
          (sent p ++ (if checked then [mkNote TopUpActivated normal "battery-full"] else []))%list.

(** ** Sample snapshots, stores and panels *)

(** A snapshot on AC power, and one on battery, at capacity [c]. *)
Definition plugged_at (c : Z) : BattData :=
  mkBattData c "Charging" 0 0 0 0 0 0 1 0 None.

Definition unplugged_at (c : Z) : BattData :=
  mkBattData c "Discharging" 0 0 0 0 0 0 0 0 None.

(** A store that can be written, and one whose directory cannot be made. *)
Definition good_store : store := mkStore Missing true true.

Definition fresh_panel : panel := mkPanel default_state good_store [].

Definition notified_panel : panel :=
  mkPanel (<["notified_at" := VInt 80]> default_state) good_store [].


(** A sysfs with the battery at 90% on AC power. *)
Definition fs_plugged_90 : sysfs :=
  {[ path_join BAT "capacity" := "90";
     path_join BAT "status" := "Charging";
     path_join AC "online" := "1" ]}.

(** Three well-formed documents that are not a valid state: a limit out of
    range, no keys at all, and values of the wrong types. *)
Definition doc_limit_500 : dict :=
  {[ "limit" := VInt 500; "top_up_active" := VBool false; "notified_at" := VInt (-1) ]}.
Definition doc_wrong_types : dict :=
  {[ "limit" := VStr "eighty"; "top_up_active" := VNone; "notified_at" := VList [] ]}.

(** A sysfs whose capacity file holds two minus signs, and one whose design
    capacity is negative. *)
Definition fs_two_dashes : sysfs := {[ path_join BAT "capacity" := "--5" ]}.

(** A sysfs with minus signs in front of two readings. *)
Definition fs_negative : sysfs :=
  {[ path_join BAT "energy_now" := "-56000000";
     path_join BAT "cycle_count" := "-3" ]}.


(** ** Events of the running panel *)

(** The two handlers that touch the state: the timer runs [_refresh], a click
    on the button runs [_toggle_topup] with the button's new value.  Each
    event comes with the sysfs as it is when the handler reads it. *)
Inductive event : Type :=
| Tick (fs : sysfs)
| Click (checked : bool) (fs : sysfs).

Definition handle (e : event) : M unit :=
  match e with
  | Tick fs => _refresh fs
  | Click checked fs => _toggle_topup checked fs
  end.

(** The panel after a sequence of events, whatever each handler returns or
    raises. *)
Definition run (es : list event) (p : panel) : panel :=
  fold_left (fun q e => snd (handle e q)) es p.

(** The directory can be made and the file written. *)
Definition writable (st : store) : Prop :=
  mkdir_ok st = true /\ write_ok st = true.

(** A restart would load exactly [self._state]. *)
Definition synced (p : panel) : Prop :=
  load_state (disk p) = VDict (_state p).



(** ** Layout constants and the placement of the panel *)

Definition W : Z := 290.
Definition MARGIN : Z := 20.
Definition GAUGE_SIZE : Z := 160.
Definition GAUGE_Y : Z := 28.
Definition POWERBAR_Y : Z := GAUGE_Y + GAUGE_SIZE + 6.
Definition PB_H : Z := 32.
Definition SEP1_Y : Z := POWERBAR_Y + PB_H + 6.
Definition STATS_Y : Z := SEP1_Y + 8.
Definition ROW_H : Z := 16.
Definition ROW_GAP : Z := 18.
Definition N_ROWS : Z := 6.
Definition SEP2_Y : Z := STATS_Y + N_ROWS * ROW_GAP + 4.
Definition BTN_Y : Z := SEP2_Y + 8.
Definition BTN_H : Z := 36.
Definition PANEL_H : Z := BTN_Y + BTN_H + 14.

(** A screen geometry, by the four accessors [show_at_cursor] calls. *)
Record QRect : Type := mkRect {
  sg_left : Z;
  sg_top : Z;
  sg_right : Z;
  sg_bottom : Z
}.

(** The position [show_at_cursor] moves the panel to, for the cursor at
    [(cx, cy)] on a screen of geometry [sg]; the panel has the fixed size
    [W] by [PANEL_H]. *)
Definition show_at_cursor (cx cy : Z) (sg : QRect) : Z * Z :=
  let x := (cx - W / 2)%Z in
  let y := (cy - PANEL_H - 8)%Z in
  (Z.max (sg_left sg + 8) (Z.min x (sg_right sg - W - 8)),
   Z.max (sg_top sg + 8) (Z.min y (sg_bottom sg - PANEL_H - 8))).

(** [int(x)] for a float [x]: truncation toward zero. *)
Definition py_trunc (q : Q) : Z := Z.quot (Qnum q) (Z.pos (Qden q)).

(** The width of the orange bar that [PowerBar.paintEvent] draws on battery:
    [max(int(w * capacity / 100), 20)]. *)
Definition battery_bar_width (w cap : Z) : result Z :=
  try! q <- truediv (w * cap) 100;
  Ok (Z.max (py_trunc q) 20).

(** ** Definitions for the further properties *)


(** A character that is neither a digit nor a dash. *)
Definition foreign (c : ascii) : bool :=
  negb (Text.is_digit_char c) && negb (Text.is_dash c).

(** The panel after [save_state(self._state)], raised or not. *)
Definition saved (p : panel) : panel := snd (save p).

(** The most notifications a sequence of events can send. *)
Definition budget (es : list event) : nat :=
  fold_right (fun e n => match e with Tick _ => 1 | Click _ _ => 2 end + n)%nat 0%nat es.

(** The critical notification for the snapshot [d] and the limit [l]. *)
Definition unplug_note (d : BattData) (l : Z) : notification :=
  mkNote (UnplugNow (capacity d) (VInt l)) critical "battery-caution".


(** [float(z)] for a Python [int]: the nearest binary64 number, or
    [OverflowError] when there is none. *)
Definition float_of_int (z : Z) : result float :=
  let f := SF2Prim (binary_normalize prec emax z 0 false) in
  if PrimFloat.is_infinity f then Raise OverflowError else Ok f.

(** [int(f)] for a [float]: truncation toward zero. *)
Definition int_of_float (f : float) : result Z :=
  match Prim2SF f with
  | S754_zero _ => Ok 0%Z
  | S754_finite s m e =>
      let v := if (0 <=? e)%Z then (Z.pos m * 2 ^ e)%Z
               else Z.quot (Z.pos m) (2 ^ (- e)) in
      Ok (if s then (- v)%Z else v)
  | S754_infinity _ => Raise OverflowError
  | S754_nan => Raise ValueError
  end.

(** The span of the pie in [make_tray_icon], in sixteenths of a degree:
    [int(-(pct / 100.0) * 5760)]. *)
Definition tray_span (pct : Z) : result Z :=
  try! x <- float_of_int pct;
  int_of_float (PrimFloat.mul (PrimFloat.opp (PrimFloat.div x 100%float)) 5760%float).

(** The span is acceptable for [pct]: inside the circle, never more than the
    exact share [57.6 * pct] and at most one unit short of it. *)
Definition span_ok (pct : Z) : bool :=
  match tray_span pct with
  | Ok s => (-5760 <=? s)%Z && (s <=? 0)%Z
            && (-576 * pct <=? 10 * s)%Z && (10 * s <=? -576 * pct + 10)%Z
            && (negb (pct =? 100)%Z || (s =? -5760)%Z)
  | Raise _ => false
  end.



(** The body of [ArcGauge._step_anim] once [target = float(self._pct)] is
    known: the new [self._animated_pct]. *)
#[warnings="-inexact-float"]
Definition anim_step (target animated : float) : float :=
  let diff := PrimFloat.sub target animated in
  if PrimFloat.ltb 0.2%float (PrimFloat.abs diff)
  then PrimFloat.add animated (PrimFloat.mul diff 0.08%float)
  else if PrimFloat.ltb 0.01%float (PrimFloat.abs diff) then target
       else animated.

(** [ArcGauge._step_anim], one frame of the animation toward [pct]. *)
Definition _step_anim (pct : Z) (animated : float) : result float :=
  try! target <- float_of_int pct;
  Ok (anim_step target animated).

(** Eighty frames take the gauge from the reading [a] exactly to the reading
    [b], where it stays. *)
Definition settles (a b : Z) : bool :=
  match float_of_int a, float_of_int b with
  | Ok x, Ok y =>
      PrimFloat.eqb (Nat.iter 80 (anim_step y) x) y
      && PrimFloat.eqb (anim_step y y) y
  | _, _ => false
  end.

(** [max(0, min(100, x))] in [ArcGauge.paintEvent]. *)
Definition clamp_pct (x : float) : float :=
  let m := if PrimFloat.ltb x 100%float then x else 100%float in
  if PrimFloat.ltb 0%float m then m else 0%float.

(** The span of the value arc in [ArcGauge.paintEvent], in sixteenths of a
    degree: [int(-sweep * 16)] with [sweep = (pct / 100.0) * 270]. *)
Definition gauge_span (animated : float) : result Z :=
  let sweep := PrimFloat.mul (PrimFloat.div (clamp_pct animated) 100%float) 270%float in
  int_of_float (PrimFloat.mul (PrimFloat.opp sweep) 16%float).

(** The arc drawn for the settled reading [a] lies on the track, and is the
    whole track from 100 on and nothing up to 0. *)
Definition arc_on_track (a : Z) : bool :=
  match float_of_int a with
  | Ok x =>
      match gauge_span x with
      | Ok s => (-4320 <=? s)%Z && (s <=? 0)%Z
                && (negb (100 <=? a)%Z || (s =? -4320)%Z)
                && (negb (a <=? 0)%Z || (s =? 0)%Z)
      | Raise _ => false
      end
  | Raise _ => false
  end.

(** * Properties *)

(** ** The model on sample inputs *)

Example sysint_plain : sysint {[ "p" := "4321" ]} "p" = Ok 4321%Z.
Proof. reflexivity. Qed.

Example sysint_newline :
  sysint {[ "p" := String "8" (String "0" (String (ascii_of_N 10) "")) ]} "p" = Ok 80%Z.
Proof. reflexivity. Qed.

Example sysint_negative : sysint {[ "p" := "-17" ]} "p" = Ok (-17)%Z.
Proof. reflexivity. Qed.

Example sysint_garbage : sysint {[ "p" := "12a" ]} "p" = Ok 0%Z.
Proof. reflexivity. Qed.

Example sysint_missing : sysint ∅ "p" = Ok 0%Z.
Proof. reflexivity. Qed.

Example sysint_two_dashes : sysint {[ "p" := "--5" ]} "p" = Raise ValueError.
Proof. reflexivity. Qed.

Example demo_snapshot :
  match BattData_init demo_fs with
  | Ok d => capacity d = 80%Z /\ ac_online d = 1%Z /\ cycle_count d = 112%Z
            /\ Qeq_bool (bios_cap_pct d) (843 # 10) = true
            /\ (match time_str d with Some h => Qeq_bool h (1 # 2) | None => false end) = true
  | Raise _ => False
  end.
Proof. vm_compute. repeat split. Qed.

(** ** Charge limit logic *)

Lemma save_run (s : dict) (st : store) (ns : list notification) :
  save (mkPanel s st ns) =
  if mkdir_ok st && write_ok st
  then (Ok tt, mkPanel s (mkStore (Document (VDict s)) true true) ns)
  else (Raise OSError, mkPanel s st ns).
Proof.
  unfold save, save_state; cbn.
  destruct (mkdir_ok st) eqn:Em, (write_ok st) eqn:Ew; reflexivity.
Qed.

Lemma save_keeps (p : panel) :
  _state (snd (save p)) = _state p /\ sent (snd (save p)) = sent p.
Proof.
  unfold save. destruct (save_state (_state p) (disk p)); cbn; auto.
Qed.

(** The three ways through the charge limit logic. *)
Lemma logic_fires (d : BattData) (p : panel) :
  fire_condition d (_state p) = Ok true ->
  charge_limit_logic d p =
  save (mkPanel (fired_state d (_state p)) (disk p)
                (sent p ++ [policy_note d (_state p)])%list).
Proof.
  intros Hf.
  assert (Hac : (ac_online d =? 0)%Z = false).
  { unfold fire_condition in Hf. destruct (ac_online d =? 0)%Z; [discriminate | reflexivity]. }
  cbv [charge_limit_logic bind get_state lift ret]. rewrite Hf, Hac.
  unfold fired_state, policy_note.
  destruct (truthy (topup_of (_state p))); cbn;
    match goal with |- context [save ?q] => destruct (save q) as [[[]|e] q'] end;
    reflexivity.
Qed.

Lemma logic_quiet (d : BattData) (p : panel) :
  fire_condition d (_state p) = Ok false ->
  ac_online d <> 0%Z ->
  charge_limit_logic d p = (Ok tt, p).
Proof.
  intros Hf Hac. apply Z.eqb_neq in Hac.
  cbv [charge_limit_logic bind get_state lift ret]. rewrite Hf, Hac. reflexivity.
Qed.

Lemma logic_raises (d : BattData) (p : panel) (e : exn) :
  fire_condition d (_state p) = Raise e ->
  charge_limit_logic d p = (Raise e, p).
Proof.
  intros Hf. cbv [charge_limit_logic bind get_state lift ret]. rewrite Hf. reflexivity.
Qed.

Lemma logic_unplugged (d : BattData) (p : panel) :
  ac_online d = 0%Z ->
  charge_limit_logic d p =
  if py_ne_int (notified_of (_state p)) (-1)
  then save (mkPanel (<["notified_at" := VInt (-1)]> (_state p)) (disk p) (sent p))
  else (Ok tt, p).
Proof.
  intros Hac.
  cbv [charge_limit_logic bind get_state lift ret fire_condition]. rewrite Hac. cbn.
  destruct (py_ne_int (notified_of (_state p)) (-1)); [|reflexivity].
  match goal with |- context [save ?q] => destruct (save q) as [[[]|e] q'] end;
    reflexivity.
Qed.

Lemma effective_limit_typed (s : dict) (st : PersistedState) :
  reads_as s st -> effective_limit s = VInt (effectiveLimit st).
Proof.
  intros (Hl & Ht & _). unfold effective_limit, effectiveLimit.
  rewrite Ht, Hl; cbn. destruct (topUpActive st); reflexivity.
Qed.

Lemma fire_condition_typed (d : BattData) (s : dict) (st : PersistedState) :
  reads_as s st ->
  fire_condition d s =
  Ok (negb (ac_online d =? 0)%Z
      && ((effectiveLimit st <=? capacity d)%Z && negb (notifiedAt st =? capacity d)%Z)).
Proof.
  intros H. unfold fire_condition.
  rewrite (effective_limit_typed s st H). destruct H as (_ & _ & Hn). rewrite Hn.
  destruct (ac_online d =? 0)%Z; reflexivity.
Qed.

Lemma reads_as_fired (d : BattData) (s : dict) (st : PersistedState) :
  reads_as s st ->
  reads_as (fired_state d s) (mkState (limit st) false (capacity d)).
Proof.
  intros (Hl & Ht & Hn).
  unfold reads_as, fired_state, limit_of, topup_of, notified_of, dict_get in *; cbn.
  rewrite Ht; cbn.
  destruct (topUpActive st); simplify_map_eq; auto.
Qed.

Lemma reads_as_unplugged (s : dict) (st : PersistedState) :
  reads_as s st ->
  reads_as (<["notified_at" := VInt (-1)]> s) (mkState (limit st) (topUpActive st) (-1)).
Proof.
  intros (Hl & Ht & Hn).
  unfold reads_as, limit_of, topup_of, notified_of, dict_get in *; cbn.
  simplify_map_eq; auto.
Qed.

Lemma after_fire (d : BattData) (p : panel) :
  fire_condition d (_state p) = Ok true ->
  _state (after_tick d p) = fired_state d (_state p)
  /\ sent (after_tick d p) = (sent p ++ [policy_note d (_state p)])%list.
Proof.
  intros Hf. unfold after_tick. rewrite (logic_fires d p Hf).
  apply (save_keeps (mkPanel _ _ _)).
Qed.

Lemma fire_condition_after_fire (d : BattData) (s : dict) :
  fire_condition d (fired_state d s) <> Ok true.
Proof.
  unfold fire_condition.
  destruct (negb (ac_online d =? 0)%Z); [|discriminate].
  assert (Hn : notified_of (fired_state d s) = VInt (capacity d)).
  { unfold notified_of, dict_get, fired_state. by simplify_map_eq. }
  rewrite Hn; cbn. rewrite Z.eqb_refl.
  destruct (py_ge_int _ _) as [b|e]; cbn; [|discriminate].
  rewrite andb_false_r. discriminate.
Qed.

Lemma after_no_fire (d : BattData) (p : panel) :
  ac_online d <> 0%Z ->
  fire_condition d (_state p) <> Ok true ->
  after_tick d p = p.
Proof.
  intros Hac Hf. unfold after_tick.
  destruct (fire_condition d (_state p)) as [[|]|e] eqn:E.
  - congruence.
  - by rewrite (logic_quiet d p E Hac).
  - by rewrite (logic_raises d p e E).
Qed.




(** C2.  Off AC power nothing is sent and a recorded [notified_at] goes back
    to [-1]; nothing is sent either while the capacity is below the
    effective limit. *)
Theorem no_notification_unplugged_or_below (d : BattData) (p : panel) (st : PersistedState) :
  reads_as (_state p) st ->
  (ac_online d = 0%Z ->
     sent (after_tick d p) = sent p
     /\ (notifiedAt st <> (-1)%Z ->
         reads_as (_state (after_tick d p)) (mkState (limit st) (topUpActive st) (-1)))
     /\ (notifiedAt st = (-1)%Z -> after_tick d p = p))
  /\ ((capacity d < effectiveLimit st)%Z -> sent (after_tick d p) = sent p).
Proof.
  intros Hr. split.
  - intros Hac. unfold after_tick. rewrite (logic_unplugged d p Hac).
    pose proof Hr as (_ & _ & Hn). rewrite Hn; cbn.
    destruct (notifiedAt st =? -1)%Z eqn:E; cbn.
    + apply Z.eqb_eq in E. split; [reflexivity|]. split; [congruence | reflexivity].
    + apply Z.eqb_neq in E.
      destruct (save_keeps (mkPanel (<["notified_at" := VInt (-1)]> (_state p)) (disk p) (sent p)))
        as [Hs Hm]; cbn in Hs, Hm.
      split; [exact Hm|]. split; [|congruence].
      intros _. rewrite Hs. by apply reads_as_unplugged.
  - intros Hlt.
    destruct (Z.eq_dec (ac_online d) 0%Z) as [Hac|Hac].
    + unfold after_tick. rewrite (logic_unplugged d p Hac).
      destruct (py_ne_int _ _); [|reflexivity].
      apply (save_keeps (mkPanel _ _ _)).
    + rewrite (after_no_fire d p Hac); [reflexivity|].
      rewrite (fire_condition_typed d _ st Hr).
      apply Z.leb_gt in Hlt. rewrite Hlt, andb_false_r. discriminate.
Qed.

Lemma no_notification_unplugged_or_below_witness :
  sent (after_tick (unplugged_at 60) notified_panel) = []
  /\ reads_as (_state (after_tick (unplugged_at 60) notified_panel)) (mkState 80 false (-1))
  /\ sent (after_tick (plugged_at 79) fresh_panel) = [].
Proof.
  destruct (no_notification_unplugged_or_below (unplugged_at 60) notified_panel
              (mkState 80 false 80)) as [Hu _]; [repeat split|].
  destruct (no_notification_unplugged_or_below (plugged_at 79) fresh_panel
              (mkState 80 false (-1))) as [_ Hb]; [repeat split|].
  destruct (Hu eq_refl) as (H1 & H2 & _).
  split; [exact H1|]. split; [apply H2; cbn; lia|].
  apply Hb. cbn. lia.
Defined.

(** C3.  Deduplication: on AC power a second evaluation with the same
    snapshot, on the state the first one produced, sends nothing and leaves
    the state as it is. *)
Theorem dedup_idempotent (d : BattData) (p : panel) :
  ac_online d <> 0%Z ->
  let p1 := after_tick d p in
  let p2 := after_tick d p1 in
  sent p2 = sent p1 /\ _state p2 = _state p1 /\ disk p2 = disk p1.
Proof.
  intros Hac p1 p2.
  assert (H : p2 = p1); [|by rewrite H].
  unfold p2. apply (after_no_fire d p1 Hac).
  destruct (fire_condition d (_state p)) as [[|]|e] eqn:E.
  - destruct (after_fire d p E) as [Hs _]. fold p1 in Hs. rewrite Hs.
    apply fire_condition_after_fire.
  - unfold p1. rewrite (after_no_fire d p Hac); congruence.
  - unfold p1. rewrite (after_no_fire d p Hac); congruence.
Qed.

Lemma dedup_idempotent_witness :
  let p1 := after_tick (plugged_at 80) fresh_panel in
  sent (after_tick (plugged_at 80) p1) = sent p1
  /\ _state (after_tick (plugged_at 80) p1) = _state p1.
Proof.
  destruct (dedup_idempotent (plugged_at 80) fresh_panel) as (H1 & H2 & _).
  - cbn. lia.
  - split; [exact H1 | exact H2].
Defined.



(** [_refresh] is the charge limit logic on the snapshot it reads, and stops
    before it when the read raises. *)
Lemma refresh_on_snapshot (fs : sysfs) (d : BattData) (p : panel) :
  BattData_init fs = Ok d -> _refresh fs p = charge_limit_logic d p.
Proof. intros H. unfold _refresh, bind, lift. by rewrite H. Qed.

Lemma refresh_sensor_error (fs : sysfs) (e : exn) (p : panel) :
  BattData_init fs = Raise e -> _refresh fs p = (Raise e, p).
Proof. intros H. unfold _refresh, bind, lift. by rewrite H. Qed.

Example refresh_at_limit :
  sent (snd (_refresh demo_fs fresh_panel))
  = [mkNote (UnplugNow 80 (VInt 80)) critical "battery-caution"]
  /\ notified_of (_state (snd (_refresh demo_fs fresh_panel))) = VInt 80
  /\ load_state (disk (snd (_refresh demo_fs fresh_panel)))
     = VDict (_state (snd (_refresh demo_fs fresh_panel))).
Proof. vm_compute. repeat split. Qed.

Example refresh_two_dashes :
  _refresh fs_two_dashes fresh_panel = (Raise ValueError, fresh_panel).
Proof. reflexivity. Qed.

(** ** The top-up toggle *)



Lemma toggle_own_run (checked : bool) (p : panel) :
  mkdir_ok (disk p) = true ->
  write_ok (disk p) = true ->
  toggle_own checked p = (Ok tt, toggled checked p).
Proof.
  intros Hm Hw.
  cbv [toggle_own bind set_item]. cbn [_state disk sent].
  rewrite save_run, Hm, Hw; cbn.
  unfold toggled. destruct checked; cbn; [reflexivity|].
  by rewrite app_nil_r.
Qed.




(** ** State persistence *)

Lemma default_state_reads : reads_as default_state (mkState 80 false (-1)).
Proof. repeat split. Qed.

Lemma dict_differs (m1 m2 : dict) (k : string) :
  m1 !! k <> m2 !! k -> VDict m1 <> VDict m2.
Proof. intros Hk H. injection H as H. apply Hk. by rewrite H. Qed.

(** C6, as the specification states it, fails: a document that parses is
    returned as it is, whatever its keys, types and ranges. *)
Lemma load_state_not_validated :
  load_state (mkStore (Document (VDict doc_limit_500)) true true) <> VDict default_state
  /\ load_state (mkStore (Document (VDict ∅)) true true) <> VDict default_state
  /\ load_state (mkStore (Document (VDict doc_wrong_types)) true true) <> VDict default_state
  /\ load_state (mkStore (Document (VList [])) true true) <> VDict default_state.
Proof.
  cbn. repeat split.
  - apply (dict_differs _ _ "limit"). vm_compute. discriminate.
  - apply (dict_differs _ _ "limit"). vm_compute. discriminate.
  - apply (dict_differs _ _ "limit"). vm_compute. discriminate.
  - discriminate.
Qed.

(** C6, amended.  [load_state] never fails; it returns the defaults
    [{limit: 80, top_up_active: False, notified_at: -1}] when the file is
    absent, unreadable or not a JSON document, and returns every JSON
    document as parsed, without validation. *)
Theorem load_state_defaults_or_document (st : store) :
  (file st = Missing \/ file st = Unreadable \/ file st = Malformed ->
     load_state st = VDict default_state
     /\ reads_as default_state (mkState 80 false (-1)))
  /\ (forall v : pyval, file st = Document v -> load_state st = v).
Proof.
  unfold load_state, read_state_file. split.
  - intros [H | [H | H]]; rewrite H; split; auto using default_state_reads.
  - intros v H. by rewrite H.
Qed.

Lemma load_state_defaults_or_document_witness :
  load_state good_store = VDict default_state
  /\ reads_as default_state (mkState 80 false (-1)).
Proof.
  destruct (load_state_defaults_or_document good_store) as [H _].
  apply H. left. reflexivity.
Defined.




(** ** Text primitives *)

Module TextFacts.
Import Text.

Lemma rstrip_by_idem (p : ascii -> bool) (s : string) :
  rstrip_by p (rstrip_by p s) = rstrip_by p s.
Proof.
  induction s as [|c r IH]; [reflexivity|].
  cbn. destruct (p c && negb (nonempty (rstrip_by p r))) eqn:E; [reflexivity|].
  cbn. by rewrite IH, E.
Qed.

Lemma rstrip_by_tail (p : ascii -> bool) (c : ascii) (r : string) :
  rstrip_by p (String c r) = String c r -> rstrip_by p r = r.
Proof.
  cbn. destruct (p c && negb (nonempty (rstrip_by p r))); [discriminate|].
  by intros [= ->].
Qed.

Lemma rstrip_lstrip_fixed (p : ascii -> bool) (s : string) :
  rstrip_by p s = s -> rstrip_by p (lstrip_by p s) = lstrip_by p s.
Proof.
  induction s as [|c r IH]; [reflexivity|].
  intros H. cbn [lstrip_by]. destruct (p c); [|exact H].
  apply IH. by apply (rstrip_by_tail p c).
Qed.

Lemma lstrip_by_idem (p : ascii -> bool) (s : string) :
  lstrip_by p (lstrip_by p s) = lstrip_by p s.
Proof.
  induction s as [|c r IH]; [reflexivity|].
  cbn. destruct (p c) eqn:E; [exact IH|]. cbn. by rewrite E.
Qed.

(** [s.strip().strip() == s.strip()] *)
Lemma strip_idem (s : string) : strip (strip s) = strip s.
Proof.
  unfold strip.
  rewrite (rstrip_lstrip_fixed is_space (rstrip_by is_space s)).
  - apply lstrip_by_idem.
  - apply rstrip_by_idem.
Qed.

Lemma digit_val_range (c : ascii) :
  is_decimal c = true -> (0 <= digit_val c <= 9)%Z.
Proof.
  unfold is_decimal, digit_val. intros H.
  apply andb_true_iff in H as [H1 H2].
  apply N.leb_le in H1, H2. lia.
Qed.

(** The value of a run of digits, against its length. *)
Lemma int_digits_range (s : string) :
  forall (acc : Z) (b : bool) (n : Z),
    (0 <= acc)%Z ->
    int_digits acc b s = Some n ->
    (acc <= n < (acc + 1) * 10 ^ Z.of_nat (String.length s))%Z.
Proof.
  induction s as [|c r IH]; intros acc b n Hacc H; cbn [int_digits] in H.
  - destruct b; [|discriminate]. injection H as <-. cbn. lia.
  - cbn [String.length]. rewrite Nat2Z.inj_succ, Z.pow_succ_r by lia.
    pose proof (Z.pow_pos_nonneg 10 (Z.of_nat (String.length r))) as Hp.
    destruct (is_decimal c) eqn:Ed.
    + pose proof (digit_val_range c Ed) as Hd.
      apply IH in H; [|lia]. nia.
    + destruct ((code c =? 95)%N && b); [|discriminate].
      apply IH in H; [|lia]. nia.
Qed.


(** The sign of [int(v)] is that of its first character. *)
Lemma py_int_sign (v : string) (n : Z) :
  strip v = v ->
  py_int v = Ok n ->
  if starts_dash v then (n <= 0)%Z else (0 <= n)%Z.
Proof.
  intros Hs. unfold py_int. rewrite Hs.
  destruct v as [|c r]; [discriminate|]. cbn [starts_dash].
  destruct (is_dash c).
  - destruct (int_digits 0 false r) as [m|] eqn:E; [|discriminate].
    intros [= <-]. apply int_digits_range in E; lia.
  - destruct (code c =? 43)%N;
      (destruct (int_digits 0 false _) as [m|] eqn:E; [|discriminate]);
      intros [= <-]; apply int_digits_range in E; lia.
Qed.




End TextFacts.

(** ** Sensor reads *)

Lemma sysint_missing_zero (fs : sysfs) (p : string) :
  fs !! p = None -> sysint fs p = Ok 0%Z.
Proof. intros H. unfold sysint, sysread. by rewrite H. Qed.

Lemma sysint_sign (fs : sysfs) (p : string) (n : Z) :
  sysint fs p = Ok n ->
  if negative_reading fs p then (n <= 0)%Z else (0 <= n)%Z.
Proof.
  unfold sysint, negative_reading, sysread.
  destruct (fs !! p) as [txt|]; [|intros [= <-]; lia].
  destruct (sysint_guard (Text.strip txt)).
  - apply TextFacts.py_int_sign, TextFacts.strip_idem.
  - intros [= <-]. destruct (Text.starts_dash _); lia.
Qed.




Lemma overflows_small (q : Q) :
  (Qabs q <= 100 * 10 ^ 300)%Q -> overflows q = false.
Proof.
  intros H. unfold overflows.
  destruct (Qle_bool float_limit (Qabs q)) eqn:E; [|reflexivity].
  apply Qle_bool_iff in E. exfalso.
  assert (Hl : (100 * 10 ^ 300 < float_limit)%Q) by (vm_compute; reflexivity).
  apply (Qlt_not_le _ _ Hl). by apply (Qle_trans _ (Qabs q)).
Qed.


Lemma truediv_value (a : Z) (q : Q) :
  truediv a 1000000 = Ok q -> (q == inject_Z a * (1 # 1000000))%Q.
Proof.
  unfold truediv. destruct (overflows _); [discriminate|]. by intros [= <-].
Qed.

Lemma truediv_sign (a : Z) (q : Q) :
  truediv a 1000000 = Ok q ->
  ((0 <= a)%Z -> (0 <= q)%Q) /\ ((a <= 0)%Z -> (q <= 0)%Q).
Proof.
  intros H. apply truediv_value in H. rewrite H.
  split; intros Ha; rewrite Zle_Qle in Ha; change (inject_Z 0) with 0%Q in Ha; lra.
Qed.






Lemma BattData_init_inv (fs : sysfs) (d : BattData) :
  BattData_init fs = Ok d ->
  sysint fs (path_join BAT "capacity") = Ok (capacity d)
  /\ status d = match sysread fs (path_join BAT "status") with
                | Some v => if Text.nonempty v then v else "Unknown"
                | None => "Unknown"
                end
  /\ (exists e, sysint fs (path_join BAT "energy_now") = Ok e
                /\ truediv e 1000000 = Ok (energy_now d))
  /\ (exists e, sysint fs (path_join BAT "energy_full") = Ok e
                /\ truediv e 1000000 = Ok (energy_full d))
  /\ (exists e, sysint fs (path_join BAT "energy_full_design") = Ok e
                /\ truediv e 1000000 = Ok (energy_design d))
  /\ (exists e, sysint fs (path_join BAT "power_now") = Ok e
                /\ truediv e 1000000 = Ok (power_w d))
  /\ (exists e, sysint fs (path_join BAT "voltage_now") = Ok e
                /\ truediv e 1000000 = Ok (voltage_v d))
  /\ sysint fs (path_join BAT "cycle_count") = Ok (cycle_count d)
  /\ sysint fs (path_join AC "online") = Ok (ac_online d)
  /\ time_estimate (status d) (energy_now d) (energy_full d) (power_w d) = Ok (time_str d)
  /\ bios_cap_pct d = bios_cap (energy_full d) (energy_design d).
Proof.
  unfold BattData_init.
  repeat match goal with
         | |- context [rbind ?r _] =>
             let E := fresh "E" in destruct r as [?|?] eqn:E; cbn [rbind]; [|discriminate]
         end.
  intros [= <-]; cbn.
  repeat split; eauto.
Qed.

Lemma Qtruthy_false (q : Q) : Qtruthy q = false <-> (q == 0)%Q.
Proof. unfold Qtruthy. rewrite negb_false_iff. apply Qeq_bool_iff. Qed.

Lemma energy_missing_zero (fs : sysfs) (p : string) (e : Z) (q : Q) :
  sysint fs p = Ok e -> truediv e 1000000 = Ok q -> fs !! p = None -> (q == 0)%Q.
Proof.
  intros He Hq Hp. rewrite (sysint_missing_zero fs p Hp) in He.
  injection He as <-. apply truediv_value in Hq. rewrite Hq. reflexivity.
Qed.

Lemma snapshot_has_defaults (fs : sysfs) (d : BattData) :
  BattData_init fs = Ok d -> snapshot_defaults fs d.
Proof.
  intros H. apply BattData_init_inv in H.
  destruct H as (Hcap & Hst & (e1 & Hs1 & Hd1) & (e2 & Hs2 & Hd2) & (e3 & Hs3 & Hd3)
                 & (e4 & Hs4 & Hd4) & (e5 & Hs5 & Hd5) & Hcyc & Hon & _ & Hbios).
  unfold snapshot_defaults. repeat split.
  - intros Hp. rewrite Hst. unfold sysread. by rewrite Hp.
  - intros Hp. rewrite (sysint_missing_zero fs _ Hp) in Hcap. congruence.
  - by apply (energy_missing_zero fs _ e1).
  - by apply (energy_missing_zero fs _ e2).
  - by apply (energy_missing_zero fs _ e3).
  - by apply (energy_missing_zero fs _ e4).
  - by apply (energy_missing_zero fs _ e5).
  - intros Hp. rewrite (sysint_missing_zero fs _ Hp) in Hcyc. congruence.
  - intros Hp. rewrite (sysint_missing_zero fs _ Hp) in Hon. congruence.
  - intros Hz. rewrite Hbios. unfold bios_cap.
    apply Qtruthy_false in Hz. by rewrite Hz.
  - intros Hz. rewrite Hbios. unfold bios_cap.
    destruct (Qtruthy (energy_design d)) eqn:E; [reflexivity|].
    apply Qtruthy_false in E. contradiction.
Qed.




Lemma energy_sign (fs : sysfs) (p : string) (e : Z) (q : Q) :
  sysint fs p = Ok e -> truediv e 1000000 = Ok q ->
  if negative_reading fs p then (q <= 0)%Q else (0 <= q)%Q.
Proof.
  intros He Hq. apply sysint_sign in He. apply truediv_sign in Hq as [Hpos Hneg].
  destruct (negative_reading fs p); auto.
Qed.

(** C9, as the specification states it, fails: [sysint] strips a minus sign
    before its digit test and [int] keeps it, so a reading such as ["-3"]
    gives a negative field. *)
Lemma snapshot_negative_fields :
  match BattData_init fs_negative with
  | Ok d => (energy_now d < 0)%Q /\ (cycle_count d < 0)%Z /\ cycle_count d = (-3)%Z
  | Raise _ => False
  end.
Proof. vm_compute. repeat split. Qed.

(** C9, amended.  In every constructed snapshot each of [energy_now],
    [energy_full], [energy_design] and [cycle_count] is non-negative unless
    the stripped content of its file starts with a minus sign, in which case
    it is not positive; [cycle_count] is [0] when its file is unreadable. *)
Theorem snapshot_field_signs (fs : sysfs) (d : BattData) :
  BattData_init fs = Ok d ->
  (if negative_reading fs (path_join BAT "energy_now")
   then (energy_now d <= 0)%Q else (0 <= energy_now d)%Q)
  /\ (if negative_reading fs (path_join BAT "energy_full")
      then (energy_full d <= 0)%Q else (0 <= energy_full d)%Q)
  /\ (if negative_reading fs (path_join BAT "energy_full_design")
      then (energy_design d <= 0)%Q else (0 <= energy_design d)%Q)
  /\ (if negative_reading fs (path_join BAT "cycle_count")
      then (cycle_count d <= 0)%Z else (0 <= cycle_count d)%Z)
  /\ (fs !! path_join BAT "cycle_count" = None -> cycle_count d = 0%Z).
Proof.
  intros H. pose proof (snapshot_has_defaults fs d H) as Hdef.
  apply BattData_init_inv in H.
  destruct H as (_ & _ & (e1 & Hs1 & Hd1) & (e2 & Hs2 & Hd2) & (e3 & Hs3 & Hd3)
                 & _ & _ & Hcyc & _).
  repeat split.
  - apply (energy_sign fs _ e1 _ Hs1 Hd1).
  - apply (energy_sign fs _ e2 _ Hs2 Hd2).
  - apply (energy_sign fs _ e3 _ Hs3 Hd3).
  - apply (sysint_sign fs _ _ Hcyc).
  - apply Hdef.
Qed.

Lemma snapshot_field_signs_witness :
  match BattData_init demo_fs with
  | Ok d => (0 <= energy_now d)%Q /\ (0 <= energy_full d)%Q
            /\ (0 <= energy_design d)%Q /\ (0 <= cycle_count d)%Z
  | Raise _ => False
  end.
Proof.
  destruct (BattData_init demo_fs) as [d|e] eqn:E; [|vm_compute in E; discriminate].
  destruct (snapshot_field_signs demo_fs d E) as (H1 & H2 & H3 & H4 & _).
  repeat split; assumption.
Defined.







(** * Further properties of the code *)

(** ** What [sysint] reads *)

Module ParseFacts.
Import Text.







End ParseFacts.

Module DecimalFacts.
Import Text.










End DecimalFacts.





Lemma digits_not_foreign (s : string) :
  Text.all_chars Text.is_digit_char s = true -> Text.any_char foreign s = false.
Proof.
  induction s as [|c r IH]; [reflexivity|]. cbn.
  intros H. apply andb_true_iff in H as [Hc Hr].
  unfold foreign at 1. by rewrite Hc, (IH Hr).
Qed.

Lemma foreign_after_dashes (v : string) :
  Text.any_char foreign v = true ->
  Text.any_char foreign (Text.lstrip_dash v) = true.
Proof.
  unfold Text.lstrip_dash. induction v as [|c r IH]; [discriminate|].
  intros H. cbn [Text.lstrip_by]. destruct (Text.is_dash c) eqn:Ed; [|exact H].
  apply IH. cbn in H. unfold foreign in H at 1.
  by rewrite Ed, andb_false_r in H.
Qed.

Lemma guard_rejects_foreign (v : string) :
  Text.any_char foreign v = true -> Text.isdigit (Text.lstrip_dash v) = false.
Proof.
  intros H. apply foreign_after_dashes in H. unfold Text.isdigit.
  destruct (Text.all_chars Text.is_digit_char (Text.lstrip_dash v)) eqn:E;
    [|apply andb_false_r].
  apply digits_not_foreign in E. congruence.
Qed.

(** An unreadable file, an empty or blank one, and one that holds a character
    other than digits and dashes all read as [0]. *)
Theorem sysint_zero_on_garbage (fs : sysfs) (p : string) :
  fs !! p = None
  \/ (exists txt, fs !! p = Some txt
                  /\ (Text.strip txt = EmptyString
                      \/ Text.any_char foreign (Text.strip txt) = true)) ->
  sysint fs p = Ok 0%Z.
Proof.
  unfold sysint, sysread. intros [-> | (txt & -> & H)]; [reflexivity|].
  unfold sysint_guard. destruct H as [-> | H]; [reflexivity|].
  by rewrite (guard_rejects_foreign _ H), andb_false_r.
Qed.

Lemma sysint_zero_on_garbage_witness :
  sysint {[ "p" := "3.7 V" ]} "p" = Ok 0%Z.
Proof.
  apply sysint_zero_on_garbage. right. exists "3.7 V".
  split; [reflexivity|]. right. reflexivity.
Defined.

(** ** The derived capacity *)

Lemma round_half_even_bounds (q : Q) (n : Z) :
  (0 <= n)%Z ->
  (0 <= q <= inject_Z n)%Q ->
  (0 <= round_half_even q <= n)%Z.
Proof.
  intros Hn [H0 H1]. unfold round_half_even.
  pose proof (Qfloor_le q) as Hf. pose proof (Qlt_floor q) as Hc.
  set (f := Qfloor q) in *.
  assert (Hf0 : (0 <= f)%Z).
  { assert (H : (inject_Z 0 < inject_Z (f + 1))%Q) by (eapply Qle_lt_trans; eauto).
    rewrite <- Zlt_Qlt in H. lia. }
  assert (Hfn : (f <= n)%Z).
  { rewrite Zle_Qle. by apply (Qle_trans _ q). }
  assert (Hstep : (f = n -> q - inject_Z f <= 0)%Q).
  { intros ->. lra. }
  destruct (q - inject_Z f ?= 1 # 2)%Q eqn:E.
  - apply Qeq_alt in E. destruct (Z.even f); [lia|].
    destruct (Z.eq_dec f n) as [Heq|]; [|lia]. apply Hstep in Heq. lra.
  - lia.
  - apply Qgt_alt in E.
    destruct (Z.eq_dec f n) as [Heq|]; [|lia]. apply Hstep in Heq. lra.
Qed.

Lemma py_round1_bounds (x : Q) :
  (0 <= x <= 100)%Q -> (0 <= py_round1 x <= 100)%Q.
Proof.
  intros Hx. unfold py_round1.
  destruct (round_half_even_bounds (x * 10) 1000) as [Hl Hu]; [lia | |].
  { change (inject_Z 1000) with 1000%Q. lra. }
  rewrite Zle_Qle in Hl, Hu.
  change (inject_Z 0) with 0%Q in Hl. change (inject_Z 1000) with 1000%Q in Hu.
  set (r := inject_Z (round_half_even (x * 10))) in *.
  assert (Hr : (r / 10 == r * (1 # 10))%Q) by reflexivity.
  rewrite Hr. lra.
Qed.

(** With a positive design capacity and a full capacity between zero and
    it, [bios_cap_pct] lies between 0 and 100. *)
Theorem bios_cap_pct_range (fs : sysfs) (d : BattData) :
  BattData_init fs = Ok d ->
  (0 < energy_design d)%Q ->
  (0 <= energy_full d <= energy_design d)%Q ->
  (0 <= bios_cap_pct d <= 100)%Q.
Proof.
  intros H Hd [Hf0 Hf1].
  destruct (snapshot_has_defaults fs d H) as (_ & _ & _ & _ & _ & _ & _ & _ & _ & _ & Hb).
  rewrite Hb by lra. apply py_round1_bounds.
  set (full := energy_full d) in *. set (design := energy_design d) in *.
  assert (H0 : (0 <= full / design)%Q).
  { apply Qle_shift_div_l; [exact Hd | lra]. }
  assert (H1 : (full / design <= 1)%Q).
  { apply Qle_shift_div_r; [exact Hd | lra]. }
  lra.
Qed.

Lemma bios_cap_pct_range_witness :
  match BattData_init demo_fs with
  | Ok d => (0 <= bios_cap_pct d <= 100)%Q
  | Raise _ => False
  end.
Proof.
  destruct (BattData_init demo_fs) as [d|e] eqn:E; [|vm_compute in E; discriminate].
  assert (Hd : d = match BattData_init demo_fs with Ok x => x | Raise _ => d end)
    by (by rewrite E).
  apply (bios_cap_pct_range demo_fs d E).
  - rewrite Hd. vm_compute. reflexivity.
  - rewrite Hd. split; vm_compute; discriminate.
Defined.

(** ** Handlers and sequences of events *)

Lemma saved_shape (s : dict) (st : store) (ns : list notification) :
  saved (mkPanel s st ns)
  = mkPanel s (if mkdir_ok st && write_ok st
               then mkStore (Document (VDict s)) true true else st) ns.
Proof.
  unfold saved. rewrite save_run. by destruct (mkdir_ok st && write_ok st).
Qed.

(** The three outcomes of the charge limit logic, for any state. *)
Lemma after_tick_shape (d : BattData) (p : panel) :
  after_tick d p = p
  \/ (ac_online d <> 0%Z
      /\ after_tick d p
         = saved (mkPanel (fired_state d (_state p)) (disk p)
                          (sent p ++ [policy_note d (_state p)])%list))
  \/ (ac_online d = 0%Z
      /\ after_tick d p
         = saved (mkPanel (<["notified_at" := VInt (-1)]> (_state p)) (disk p) (sent p))).
Proof.
  destruct (Z.eq_dec (ac_online d) 0%Z) as [Hac|Hac].
  - unfold after_tick. rewrite (logic_unplugged d p Hac).
    destruct (py_ne_int _ _); [right; right; by split | by left].
  - destruct (fire_condition d (_state p)) as [[|]|e] eqn:E.
    + right. left. split; [exact Hac|]. unfold after_tick. by rewrite (logic_fires d p E).
    + left. apply (after_no_fire d p Hac). congruence.
    + left. apply (after_no_fire d p Hac). congruence.
Qed.

Lemma toggle_own_shape (checked : bool) (p : panel) :
  let s := <["notified_at" := VInt (-1)]> (<["top_up_active" := VBool checked]> (_state p)) in
  toggle_own checked p
  = if mkdir_ok (disk p) && write_ok (disk p)
    then (Ok tt, toggled checked p)
    else (Raise OSError, mkPanel s (disk p) (sent p)).
Proof.
  cbv zeta. destruct (mkdir_ok (disk p)) eqn:Em, (write_ok (disk p)) eqn:Ew; cbn [andb];
    [by apply toggle_own_run | ..];
    cbv [toggle_own bind set_item]; cbn [_state disk sent];
    by rewrite save_run, Em, Ew.
Qed.

(** A relation between panels that holds across both steps of the handlers
    holds across every handler and every sequence of events. *)
Section Across.

Variable R : panel -> panel -> Prop.
Hypothesis R_refl : forall p, R p p.
Hypothesis R_trans : forall p q r, R p q -> R q r -> R p r.
Hypothesis R_tick : forall d p, R p (after_tick d p).
Hypothesis R_toggle : forall checked p, R p (snd (toggle_own checked p)).

Lemma across_refresh (fs : sysfs) (p : panel) : R p (snd (_refresh fs p)).
Proof.
  unfold _refresh, bind, lift. destruct (BattData_init fs) as [d|e]; [|apply R_refl].
  apply (R_tick d p).
Qed.

Lemma across_handle (e : event) (p : panel) : R p (snd (handle e p)).
Proof.
  destruct e as [fs | checked fs]; [apply across_refresh|].
  cbn [handle]. unfold _toggle_topup, bind.
  pose proof (R_toggle checked p) as Ht.
  destruct (toggle_own checked p) as [[[]|e] p1]; [|exact Ht].
  cbn [snd] in Ht. apply (R_trans _ p1); [exact Ht | apply across_refresh].
Qed.

Lemma across_run (es : list event) (p : panel) : R p (run es p).
Proof.
  revert p. induction es as [|e es IH]; intros p; [apply R_refl|].
  cbn. apply (R_trans _ (snd (handle e p))); [apply across_handle | apply IH].
Qed.

End Across.

Lemma saved_state (p : panel) : _state (saved p) = _state p /\ sent (saved p) = sent p.
Proof. apply save_keeps. Qed.

Lemma fired_state_other (d : BattData) (s : dict) (k : string) :
  k <> "top_up_active" -> k <> "notified_at" -> fired_state d s !! k = s !! k.
Proof.
  intros H1 H2. unfold fired_state. destruct (truthy _); by simplify_map_eq.
Qed.

(** The program writes the keys [top_up_active] and [notified_at] and no
    other: every other key of the state, [limit] among them, is the same
    after any sequence of events. *)
Theorem state_keys_preserved (es : list event) (p : panel) (k : string) :
  k <> "top_up_active" ->
  k <> "notified_at" ->
  _state (run es p) !! k = _state p !! k.
Proof.
  intros H1 H2.
  apply (across_run (fun p q => _state q !! k = _state p !! k)).
  - reflexivity.
  - intros a b c Hab Hbc. congruence.
  - intros d q. destruct (after_tick_shape d q) as [-> | [[_ ->] | [_ ->]]];
      [reflexivity | ..]; rewrite (proj1 (saved_state _)); cbn [_state].
    + by apply fired_state_other.
    + by simplify_map_eq.
  - intros checked q. rewrite toggle_own_shape.
    destruct (mkdir_ok (disk q) && write_ok (disk q)); cbn; by simplify_map_eq.
Qed.

Lemma state_keys_preserved_witness :
  _state (run [Click true fs_plugged_90; Tick demo_fs; Tick fs_two_dashes] fresh_panel)
    !! "limit" = Some (VInt 80).
Proof.
  rewrite (state_keys_preserved _ fresh_panel "limit"); [reflexivity | done | done].
Defined.

Lemma reads_as_toggled (checked : bool) (s : dict) (st : PersistedState) :
  reads_as s st ->
  reads_as (<["notified_at" := VInt (-1)]> (<["top_up_active" := VBool checked]> s))
           (mkState (limit st) checked (-1)).
Proof.
  intros (Hl & Ht & Hn).
  unfold reads_as, limit_of, topup_of, notified_of, dict_get in *; cbn.
  simplify_map_eq; auto.
Qed.

Lemma handle_keeps_typed (e : event) (p : panel) (st : PersistedState) :
  reads_as (_state p) st ->
  exists st', reads_as (_state (snd (handle e p))) st' /\ limit st' = limit st.
Proof.
  revert st.
  apply (across_handle (fun p q => forall st, reads_as (_state p) st ->
                          exists st', reads_as (_state q) st' /\ limit st' = limit st)).
  - intros q st H. by exists st.
  - intros a b c Hab Hbc st H.
    destruct (Hab st H) as (st1 & H1 & E1). destruct (Hbc st1 H1) as (st2 & H2 & E2).
    exists st2. split; [exact H2 | congruence].
  - intros d q st H. destruct (after_tick_shape d q) as [-> | [[_ ->] | [_ ->]]];
      [by exists st | ..]; rewrite (proj1 (saved_state _)); cbn [_state].
    + eexists. split; [by apply reads_as_fired | reflexivity].
    + eexists. split; [by apply reads_as_unplugged | reflexivity].
  - intros checked q st H. rewrite toggle_own_shape.
    destruct (mkdir_ok (disk q) && write_ok (disk q)); cbn [snd toggled _state];
      (eexists; split; [by apply reads_as_toggled | reflexivity]).
Qed.

(** A state that reads as an integer limit, a boolean and an integer still
    does after any sequence of events, with the same limit. *)
Theorem typed_state_preserved (es : list event) (p : panel) (st : PersistedState) :
  reads_as (_state p) st ->
  exists st', reads_as (_state (run es p)) st' /\ limit st' = limit st.
Proof.
  revert p st. induction es as [|e es IH]; intros p st Hr.
  - exists st. by split.
  - destruct (handle_keeps_typed e p st Hr) as (st1 & Hr1 & E1).
    destruct (IH (snd (handle e p)) st1 Hr1) as (st2 & Hr2 & E2).
    exists st2. split; [exact Hr2 | congruence].
Qed.

Lemma typed_state_preserved_witness :
  exists st', reads_as (_state (run [Click true fs_plugged_90; Tick demo_fs] fresh_panel)) st'
              /\ limit st' = 80%Z.
Proof.
  apply (typed_state_preserved _ fresh_panel (mkState 80 false (-1))).
  repeat split.
Defined.

Lemma synced_after_save (s : dict) (st : store) (ns : list notification) :
  writable st ->
  writable (disk (saved (mkPanel s st ns))) /\ synced (saved (mkPanel s st ns)).
Proof.
  intros [Hm Hw]. rewrite saved_shape, Hm, Hw. cbn. by repeat split.
Qed.

Lemma handle_keeps_synced (e : event) (p : panel) :
  writable (disk p) /\ synced p ->
  writable (disk (snd (handle e p))) /\ synced (snd (handle e p)).
Proof.
  apply (across_handle (fun p q => writable (disk p) /\ synced p ->
                                   writable (disk q) /\ synced q)).
  - auto.
  - auto.
  - intros d q [Hw Hs]. destruct (after_tick_shape d q) as [-> | [[_ ->] | [_ ->]]];
      [by split | ..]; by apply synced_after_save.
  - intros checked q [[Hm Hw] Hs]. rewrite toggle_own_shape, Hm, Hw. cbn.
    by repeat split.
Qed.

Lemma panel_init_inv (st : store) (fs : sysfs) (p : panel) :
  panel_init st fs = Ok p ->
  exists d s, BattData_init fs = Ok d
              /\ load_state st = VDict s
              /\ p = after_tick d (mkPanel s st []).
Proof.
  unfold panel_init. intros Hp.
  destruct (BattData_init fs) as [d|e] eqn:Ed; cbn [rbind] in Hp; [|discriminate].
  destruct (load_state st) as [| b | z | f | str | l | s] eqn:El; try discriminate.
  rewrite (refresh_on_snapshot fs d _ Ed) in Hp.
  exists d, s. repeat split. unfold after_tick.
  destruct (charge_limit_logic d (mkPanel s st [])) as [[[]|e] q]; [|discriminate].
  by injection Hp as <-.
Qed.

Lemma panel_init_synced (st : store) (fs : sysfs) (p : panel) :
  writable st -> panel_init st fs = Ok p -> writable (disk p) /\ synced p.
Proof.
  intros Hw Hp. destruct (panel_init_inv st fs p Hp) as (d & s & _ & Hl & ->).
  destruct (after_tick_shape d (mkPanel s st [])) as [-> | [[_ ->] | [_ ->]]].
  - by split.
  - by apply synced_after_save.
  - by apply synced_after_save.
Qed.

(** With a state file that can be written, the file holds [self._state]
    after the panel is built and after every sequence of events: a restart
    loads the state the panel had. *)
Theorem state_file_follows (st : store) (fs : sysfs) (es : list event) (p : panel) :
  writable st ->
  panel_init st fs = Ok p ->
  load_state (disk (run es p)) = VDict (_state (run es p)).
Proof.
  intros Hw Hp.
  pose proof (panel_init_synced st fs p Hw Hp) as H0. clear Hp.
  revert p H0. induction es as [|e es IH]; intros p H0.
  - apply H0.
  - apply (IH (snd (handle e p))). by apply handle_keeps_synced.
Qed.

Lemma state_file_follows_witness :
  match panel_init good_store demo_fs with
  | Ok p => load_state (disk (run [Click true demo_fs; Tick fs_plugged_90] p))
            = VDict (_state (run [Click true demo_fs; Tick fs_plugged_90] p))
  | Raise _ => False
  end.
Proof.
  destruct (panel_init good_store demo_fs) as [p|e] eqn:E; [|vm_compute in E; discriminate].
  apply (state_file_follows good_store demo_fs _ p); [by split | exact E].
Defined.

Lemma tick_sends_at_most_one (d : BattData) (p : panel) :
  exists l, sent (after_tick d p) = (sent p ++ l)%list /\ (length l <= 1)%nat.
Proof.
  destruct (after_tick_shape d p) as [-> | [[_ ->] | [_ ->]]].
  - exists []. split; [by rewrite app_nil_r | cbn; lia].
  - rewrite (proj2 (saved_state _)). cbn [sent]. eexists. split; [reflexivity | cbn; lia].
  - rewrite (proj2 (saved_state _)). cbn [sent]. exists []. split; [by rewrite app_nil_r | cbn; lia].
Qed.

Lemma refresh_sends_at_most_one (fs : sysfs) (p : panel) :
  exists l, sent (snd (_refresh fs p)) = (sent p ++ l)%list /\ (length l <= 1)%nat.
Proof.
  unfold _refresh, bind, lift. destruct (BattData_init fs) as [d|e].
  - apply (tick_sends_at_most_one d p).
  - exists []. split; [by rewrite app_nil_r | cbn; lia].
Qed.

Lemma handle_sends_within_budget (e : event) (p : panel) :
  exists l, sent (snd (handle e p)) = (sent p ++ l)%list /\ (length l <= budget [e])%nat.
Proof.
  destruct e as [fs | checked fs]; [apply refresh_sends_at_most_one|].
  cbn [handle budget fold_right]. unfold _toggle_topup, bind.
  rewrite toggle_own_shape.
  destruct (mkdir_ok (disk p) && write_ok (disk p)).
  - destruct (refresh_sends_at_most_one fs (toggled checked p)) as (l & Hl & Hn).
    rewrite Hl. cbn [toggled sent]. rewrite <- app_assoc.
    eexists. split; [reflexivity|]. rewrite length_app. destruct checked; cbn; lia.
  - cbn. exists []. split; [by rewrite app_nil_r | cbn; lia].
Qed.

(** Notifications are only ever appended: a tick sends at most one, a click
    at most two, whatever the state and the sensors hold. *)
Theorem notifications_within_budget (es : list event) (p : panel) :
  exists l, sent (run es p) = (sent p ++ l)%list /\ (length l <= budget es)%nat.
Proof.
  revert p. induction es as [|e es IH]; intros p.
  - exists []. split; [by rewrite app_nil_r | cbn; lia].
  - cbn [run fold_left]. fold (run es (snd (handle e p))).
    destruct (handle_sends_within_budget e p) as (l1 & H1 & N1).
    destruct (IH (snd (handle e p))) as (l2 & H2 & N2).
    exists (l1 ++ l2)%list. rewrite H2, H1, <- app_assoc. split; [reflexivity|].
    assert (Hb : (budget (e :: es) = budget [e] + budget es)%nat).
    { unfold budget. cbn [fold_right]. lia. }
    rewrite length_app, Hb. lia.
Qed.

Lemma logic_exceptions (d : BattData) (p : panel) :
  fst (charge_limit_logic d p) <> Raise AttributeError
  /\ fst (charge_limit_logic d p) <> Raise ValueError.
Proof.
  destruct (Z.eq_dec (ac_online d) 0%Z) as [Hac|Hac].
  - rewrite (logic_unplugged d p Hac). destruct (py_ne_int _ _); [|by split].
    rewrite save_run. destruct (_ && _); by split.
  - destruct (fire_condition d (_state p)) as [[|]|e] eqn:E.
    + rewrite (logic_fires d p E), save_run. destruct (_ && _); by split.
    + rewrite (logic_quiet d p E Hac). by split.
    + rewrite (logic_raises d p e E). cbn.
      unfold fire_condition in E. destruct (negb _); [|discriminate].
      destruct (effective_limit (_state p)) as [| | |[]| | |]; cbn in E;
        try discriminate; injection E as <-; by split.
Qed.

(** Building the panel fails with the sensors' exception when the first read
    raises; when it does not, it fails with [AttributeError] exactly when the
    state document is not a JSON object. *)
Theorem panel_init_errors (st : store) (fs : sysfs) :
  (forall e, BattData_init fs = Raise e -> panel_init st fs = Raise e)
  /\ (forall d, BattData_init fs = Ok d ->
        (panel_init st fs = Raise AttributeError <-> forall s, load_state st <> VDict s)).
Proof.
  unfold panel_init. split.
  - intros e ->. reflexivity.
  - intros d Hd. rewrite Hd. cbn [rbind].
    destruct (load_state st) as [| b | z | f | str | l | s] eqn:El;
      try (split; [intros _ s'; discriminate | reflexivity]).
    split; [|intros H; exfalso; by apply (H s)].
    rewrite (refresh_on_snapshot fs d _ Hd).
    destruct (logic_exceptions d (mkPanel s st [])) as [Ha _].
    destruct (charge_limit_logic d (mkPanel s st [])) as [[[]|e] q]; cbn in Ha;
      [discriminate | congruence].
Qed.

Lemma panel_init_errors_witness :
  panel_init good_store fs_two_dashes = Raise ValueError
  /\ panel_init (mkStore (Document (VList [])) true true) demo_fs = Raise AttributeError.
Proof.
  destruct (panel_init_errors good_store fs_two_dashes) as [H1 _].
  destruct (BattData_init demo_fs) as [d|e] eqn:E; [|vm_compute in E; discriminate].
  destruct (panel_init_errors (mkStore (Document (VList [])) true true) demo_fs) as [_ H2].
  split.
  - apply H1. reflexivity.
  - apply (H2 d E). intros s. discriminate.
Defined.

(** ** Readings in succession *)








(** ** The toggle at its edges *)





(** ** Placement and drawing *)

Lemma layout_values : W = 290%Z /\ PANEL_H = 410%Z.
Proof. split; reflexivity. Qed.

(** The panel never starts left of or above the 8-pixel margin; on a screen
    with room for it and both margins it also ends before the right and
    bottom margins, and it sits centred over the cursor, 8 pixels above it,
    whenever that position is inside the margins.  On a screen without that
    room it is pinned to the left margin and hangs over the right edge. *)
Theorem panel_on_screen (cx cy : Z) (sg : QRect) :
  let x := fst (show_at_cursor cx cy sg) in
  let y := snd (show_at_cursor cx cy sg) in
  (sg_left sg + 8 <= x /\ sg_top sg + 8 <= y)%Z
  /\ ((sg_left sg + 8 + W + 8 <= sg_right sg)%Z -> (x + W + 8 <= sg_right sg)%Z)
  /\ ((sg_top sg + 8 + PANEL_H + 8 <= sg_bottom sg)%Z -> (y + PANEL_H + 8 <= sg_bottom sg)%Z)
  /\ ((sg_left sg + 8 <= cx - 145 <= sg_right sg - W - 8)%Z -> x = (cx - 145)%Z)
  /\ ((sg_top sg + 8 <= cy - 418 <= sg_bottom sg - PANEL_H - 8)%Z -> y = (cy - 418)%Z)
  /\ ((sg_right sg < sg_left sg + 8 + W + 8)%Z ->
      x = (sg_left sg + 8)%Z /\ (sg_right sg < x + W + 8)%Z).
Proof.
  destruct layout_values as [HW HH].
  assert (Hhalf : (W / 2 = 145)%Z) by reflexivity.
  unfold show_at_cursor. cbn [fst snd]. rewrite Hhalf, HW, HH.
  repeat split; intros; lia.
Qed.

Lemma panel_on_screen_witness :
  show_at_cursor 1900 1070 (mkRect 0 0 1919 1079) = (1621, 652)%Z
  /\ (1621 + W + 8 <= 1919)%Z.
Proof.
  destruct (panel_on_screen 1900 1070 (mkRect 0 0 1919 1079)) as (_ & Hx & _).
  split; [reflexivity|]. apply Hx. cbn. vm_compute. discriminate.
Defined.

Lemma truediv_hundred (a : Z) :
  (Z.abs a < 2 ^ 53)%Z ->
  truediv a 100 = Ok (inject_Z a / inject_Z 100)%Q
  /\ py_trunc (inject_Z a / inject_Z 100) = Z.quot a 100.
Proof.
  intros H. split.
  - unfold truediv. rewrite overflows_small; [reflexivity|].
    assert (He : (inject_Z a / inject_Z 100 == inject_Z a * (1 # 100))%Q) by reflexivity.
    assert (Hq : (- 10 ^ 300 <= inject_Z a <= 10 ^ 300)%Q).
    { split.
      - assert (- 10 ^ 300 == inject_Z (- 10 ^ 300))%Q as -> by (vm_compute; reflexivity).
        rewrite <- Zle_Qle. lia.
      - assert (10 ^ 300 == inject_Z (10 ^ 300))%Q as -> by (vm_compute; reflexivity).
        rewrite <- Zle_Qle. lia. }
    apply Qabs_Qle_condition. rewrite He. lra.
  - unfold py_trunc. cbn. by rewrite Z.mul_1_r.
Qed.

(** On battery, for a capacity from 0 to 100, the orange bar is at least 20
    pixels wide and no wider than the widget (or 20 pixels if that is more);
    for a capacity of zero or less it is 20 pixels. *)
Theorem battery_bar_in_widget (w cap : Z) :
  (0 <= w < 2 ^ 31)%Z ->
  (- 100 <= cap <= 100)%Z ->
  exists b, battery_bar_width w cap = Ok b
            /\ b = Z.max (Z.quot (w * cap) 100) 20
            /\ (20 <= b <= Z.max w 20)%Z
            /\ ((cap <= 0)%Z -> b = 20%Z).
Proof.
  intros Hw Hc. unfold battery_bar_width.
  destruct (truediv_hundred (w * cap)) as [Hd Ht]; [nia|].
  rewrite Hd. cbn [rbind]. rewrite Ht. eexists. split; [reflexivity|].
  split; [reflexivity|].
  assert (Hq : (cap <= 0 -> Z.quot (w * cap) 100 <= 0)%Z).
  { intros. apply Z.quot_le_upper_bound; nia. }
  assert (Hu : (Z.quot (w * cap) 100 <= w)%Z).
  { destruct (Z_le_gt_dec cap 0) as [Hn|Hp]; [specialize (Hq Hn); lia|].
    apply Z.quot_le_upper_bound; nia. }
  split; [lia|]. intros Hn. specialize (Hq Hn). lia.
Qed.

Lemma battery_bar_in_widget_witness :
  battery_bar_width 250 37 = Ok 92%Z /\ battery_bar_width 250 3 = Ok 20%Z.
Proof.
  destruct (battery_bar_in_widget 250 37) as (b & Hb & Hv & _); [lia | lia |].
  destruct (battery_bar_in_widget 250 3) as (b' & Hb' & Hv' & _); [lia | lia |].
  rewrite Hb, Hb', Hv, Hv'. split; reflexivity.
Defined.

(** ** The tray icon, in binary64 *)

Lemma span_ok_all : forallb (fun n => span_ok (Z.of_nat n)) (seq 0 101) = true.
Proof. vm_compute. reflexivity. Qed.

(** For a capacity from 0 to 100 the pie of the tray icon stays inside the
    full circle of 5760 units, which it fills at 100; it is never larger than the exact share
    [57.6 * pct] and falls short of it by at most one unit (it is a whole
    unit short at 35 and at 70). *)
Theorem tray_span_in_circle (pct : Z) :
  (0 <= pct <= 100)%Z ->
  exists s, tray_span pct = Ok s
            /\ (-5760 <= s <= 0)%Z
            /\ (-576 * pct <= 10 * s <= -576 * pct + 10)%Z
            /\ (pct = 100%Z -> s = (-5760)%Z).
Proof.
  intros H.
  assert (Hin : In (Z.to_nat pct) (seq 0 101)) by (apply in_seq; lia).
  pose proof (proj1 (forallb_forall _ _) span_ok_all _ Hin) as Hok.
  cbv beta in Hok. rewrite Z2Nat.id in Hok by lia.
  unfold span_ok in Hok. destruct (tray_span pct) as [s|e]; [|discriminate].
  exists s. split; [reflexivity|].
  repeat (apply andb_true_iff in Hok as [Hok ?]).
  repeat split; try lia.
Qed.

Lemma tray_span_in_circle_witness :
  tray_span 100 = Ok (-5760)%Z.
Proof.
  destruct (tray_span_in_circle 100) as (s & Hs & _ & _ & Hfull); [lia|].
  rewrite Hs. f_equal. by apply Hfull.
Defined.

Example tray_span_rounding : tray_span 35 = Ok (-2015)%Z /\ tray_span 70 = Ok (-4031)%Z.
Proof. split; vm_compute; reflexivity. Qed.

(** ** Handlers that do not raise, and restarts *)






Lemma tick_twice_condition (d : BattData) (p : panel) :
  fire_condition d (_state (after_tick d p)) <> Ok true
  /\ (ac_online d = 0%Z -> py_ne_int (notified_of (_state (after_tick d p))) (-1) = false).
Proof.
  split.
  - destruct (Z.eq_dec (ac_online d) 0%Z) as [Hac|Hac].
    + unfold fire_condition. apply Z.eqb_eq in Hac. rewrite Hac. discriminate.
    + destruct (fire_condition d (_state p)) as [[|]|e] eqn:E.
      * destruct (after_fire d p E) as [-> _]. apply fire_condition_after_fire.
      * rewrite (after_no_fire d p Hac); congruence.
      * rewrite (after_no_fire d p Hac); congruence.
  - intros Hac. unfold after_tick. rewrite (logic_unplugged d p Hac).
    destruct (py_ne_int (notified_of (_state p)) (-1)) eqn:E; [|exact E].
    rewrite (proj1 (save_keeps _)). cbn [_state].
    unfold notified_of, dict_get. by simplify_map_eq.
Qed.

(** Restarting the program while the sensors read the same is silent: with a
    state file that can be written and a state that reads as typed, the new
    panel has the state of the old one and has sent nothing. *)
Theorem restart_is_silent (st : store) (fs : sysfs) (p : panel) (ps : PersistedState) :
  writable st ->
  panel_init st fs = Ok p ->
  reads_as (_state p) ps ->
  panel_init (disk p) fs = Ok (mkPanel (_state p) (disk p) []).
Proof.
  intros Hw Hp Hr.
  destruct (panel_init_synced st fs p Hw Hp) as [_ Hsync]. unfold synced in Hsync.
  destruct (panel_init_inv st fs p Hp) as (d & s & Hd & _ & Hp0).
  unfold panel_init. rewrite Hd, Hsync. cbn [rbind].
  rewrite (refresh_on_snapshot fs d _ Hd).
  set (q := mkPanel (_state p) (disk p) []).
  assert (Hq : charge_limit_logic d q = (Ok tt, q)); [|by rewrite Hq].
  destruct (tick_twice_condition d (mkPanel s st [])) as [Hf Hu]. rewrite <- Hp0 in Hf, Hu.
  destruct (Z.eq_dec (ac_online d) 0%Z) as [Hac|Hac].
  - rewrite (logic_unplugged d q Hac). cbn [_state q]. by rewrite (Hu Hac).
  - apply (logic_quiet d q); [|exact Hac]. cbn [_state q].
    rewrite (fire_condition_typed d _ ps Hr) in *.
    destruct (negb _ && _); congruence.
Qed.

Lemma restart_is_silent_witness :
  match panel_init good_store demo_fs with
  | Ok p => sent p = [unplug_note (plugged_at 80) 80]
            /\ panel_init (disk p) demo_fs = Ok (mkPanel (_state p) (disk p) [])
  | Raise _ => False
  end.
Proof.
  destruct (panel_init good_store demo_fs) as [p|e] eqn:E; [|vm_compute in E; discriminate].
  assert (Hp : p = match panel_init good_store demo_fs with Ok x => x | Raise _ => p end)
    by (by rewrite E).
  split.
  - rewrite Hp. vm_compute. reflexivity.
  - apply (restart_is_silent good_store demo_fs p (mkState 80 false 80));
      [by split | exact E |].
    rewrite Hp. vm_compute. repeat split.
Defined.


(** ** The gauge, in binary64 *)

Lemma settles_all :
  forallb (fun a => forallb (fun b => settles (Z.of_nat a) (Z.of_nat b)) (seq 0 101))
          (seq 0 101) = true.
Proof. vm_compute. reflexivity. Qed.

(** From a settled reading [a] the animation reaches a new reading [b]
    exactly, for all readings from 0 to 100, within eighty frames, and does
    not move once there. *)
Theorem gauge_settles (a b : Z) :
  (0 <= a <= 100)%Z ->
  (0 <= b <= 100)%Z ->
  exists x y, float_of_int a = Ok x /\ float_of_int b = Ok y
              /\ PrimFloat.eqb (Nat.iter 80 (anim_step y) x) y = true
              /\ PrimFloat.eqb (anim_step y y) y = true.
Proof.
  intros Ha Hb.
  assert (Hia : In (Z.to_nat a) (seq 0 101)) by (apply in_seq; lia).
  assert (Hib : In (Z.to_nat b) (seq 0 101)) by (apply in_seq; lia).
  pose proof (proj1 (forallb_forall _ _) settles_all _ Hia) as H1. cbv beta in H1.
  pose proof (proj1 (forallb_forall _ _) H1 _ Hib) as H2. cbv beta in H2.
  rewrite !Z2Nat.id in H2 by lia. unfold settles in H2.
  destruct (float_of_int a) as [x|]; [|discriminate].
  destruct (float_of_int b) as [y|]; [|discriminate].
  apply andb_true_iff in H2 as [H3 H4]. by exists x, y.
Qed.

Lemma gauge_settles_witness :
  exists x y, float_of_int 80 = Ok x /\ float_of_int 79 = Ok y
              /\ PrimFloat.eqb (Nat.iter 80 (anim_step y) x) y = true
              /\ PrimFloat.eqb (anim_step y y) y = true.
Proof. apply gauge_settles; lia. Defined.

Lemma arc_on_track_all :
  forallb (fun n => arc_on_track (Z.of_nat n - 100)) (seq 0 301) = true.
Proof. vm_compute. reflexivity. Qed.

(** The value arc of the gauge stays on the track of 4320 units for every
    settled reading from -100 to 200: the clamp makes it the whole track
    from 100 on and nothing up to 0. *)
Theorem gauge_arc_on_track (a : Z) :
  (-100 <= a <= 200)%Z ->
  exists x s, float_of_int a = Ok x /\ gauge_span x = Ok s
              /\ (-4320 <= s <= 0)%Z
              /\ ((100 <= a)%Z -> s = (-4320)%Z)
              /\ ((a <= 0)%Z -> s = 0%Z).
Proof.
  intros H.
  assert (Hin : In (Z.to_nat (a + 100)) (seq 0 301)) by (apply in_seq; lia).
  pose proof (proj1 (forallb_forall _ _) arc_on_track_all _ Hin) as Hok.
  cbv beta in Hok. rewrite Z2Nat.id in Hok by lia.
  replace (a + 100 - 100)%Z with a in Hok by lia.
  unfold arc_on_track in Hok.
  destruct (float_of_int a) as [x|] eqn:Ex; [|discriminate].
  destruct (gauge_span x) as [s|] eqn:Es; [|discriminate].
  exists x, s. repeat (apply andb_true_iff in Hok as [Hok ?]).
  repeat split; intros; solve [reflexivity | assumption | lia].
Qed.

Lemma gauge_arc_on_track_witness :
  exists x s, float_of_int 150 = Ok x /\ gauge_span x = Ok s /\ s = (-4320)%Z.
Proof.
  destruct (gauge_arc_on_track 150) as (x & s & Hx & Hs & _ & Hfull & _); [lia|].
  exists x, s. repeat split; [exact Hx | exact Hs | apply Hfull; lia].
Defined.

Example tray_span_unclamped : tray_span 150 = Ok (-8640)%Z.
Proof. vm_compute. reflexivity. Qed.
